(** * CRO report viewer: PDF export pagination and analysis-request state

    A shallow embedding of [frontend/src/App.js]: the [handleDownloadPDF]
    handler (capture of the report with html2canvas, slicing of the captured
    image over A4 pages with jsPDF, saving), the [handleAnalyze] handler and
    the enabling conditions of the two buttons of the view.

    JavaScript numbers are modelled as exact rationals ([Q]): every quantity
    of the export is obtained from integers by [*], [/] and [-], so the model
    is the exact-arithmetic reading of the code (rounding of IEEE doubles is
    not modelled). *)

From Stdlib Require Import ZArith QArith Qround Qminmax List String Bool Lia Lqa.
Import ListNotations.

Local Open Scope string_scope.
Local Open Scope list_scope.

(** ** JavaScript effects: exceptions thrown by library calls *)

Module JS.

(** The value carried by a thrown exception or a rejected promise. *)
Definition Err := string.

(** A settled promise. *)
Inductive Settled (A : Type) : Type :=
| Resolved (a : A)
| Rejected (e : Err).
Arguments Resolved {A} a.
Arguments Rejected {A} e.

End JS.

(** ** The jsPDF document *)

Module Pdf.

(** One [pdf.addImage(data, format, x, y, w, h, alias, compression)]. *)
Record Placement := mkPlacement {
  pl_data : string;
  pl_format : string;
  pl_x : Q;
  pl_y : Q;
  pl_w : Q;
  pl_h : Q;
  pl_alias : string;
  pl_compression : string
}.

Definition PageContent := list Placement.

(** A document under construction: the pages already left behind by
    [addPage], in order, and the page that currently receives drawings. *)
Record Doc := mkDoc {
  finished : list PageContent;
  current : PageContent
}.

(** [new jsPDF(...)] starts with one blank page. *)
Definition blank : Doc := mkDoc [] [].

Definition addImage (pl : Placement) (d : Doc) : Doc :=
  mkDoc (finished d) (current d ++ [pl]).

Definition addPage (d : Doc) : Doc :=
  mkDoc (finished d ++ [current d]) [].

(** The physical pages of the document, first page first. *)
Definition pagesOf (d : Doc) : list PageContent :=
  finished d ++ [current d].

(** Every drawing of the document, in page order. *)
Definition placementsOf (d : Doc) : list Placement :=
  List.concat (pagesOf d).

(** The vertical slice of the image that a placement shows on a page of
    height [pageHeight]: image row [r] (with [0 <= r < pl_h]) lands at page
    ordinate [pl_y + r] and is visible when that lies in [[0, pageHeight)]. *)
Definition bandTop (pl : Placement) : Q := Qmax 0 (- pl_y pl).

Definition bandBottom (pageHeight : Q) (pl : Placement) : Q :=
  Qmin (pl_h pl) (pageHeight - pl_y pl).

Definition bandHeight (pageHeight : Q) (pl : Placement) : Q :=
  bandBottom pageHeight pl - bandTop pl.

(** A band of the image: the rows from [fst] (included) to [snd]
    (excluded). *)
Definition Band : Type := (Q * Q)%type.

Definition bandOf (pageHeight : Q) (pl : Placement) : Band :=
  (bandTop pl, bandBottom pageHeight pl).

(** The bands of a document, in page order. *)
Definition bandsOf (pageHeight : Q) (d : Doc) : list Band :=
  map (bandOf pageHeight) (placementsOf d).

(** [tiles from bs upto]: the bands [bs], in order, split [[from, upto)]:
    the first starts at [from], each next one starts where the previous one
    ends, and the last ends at [upto]. *)
Fixpoint tiles (from : Q) (bs : list Band) (upto : Q) : Prop :=
  match bs with
  | [] => from == upto
  | b :: rest => fst b == from /\ fst b <= snd b /\ tiles (snd b) rest upto
  end.

(** The offsets of the bands strictly increase. *)
Fixpoint ascending (bs : list Band) : Prop :=
  match bs with
  | [] => True
  | b :: rest =>
      match rest with
      | [] => True
      | b' :: _ => fst b < fst b'
      end /\ ascending rest
  end.

End Pdf.

(** ** The export handler *)

Module Exporter.
Import JS Pdf.

(** The canvas html2canvas resolves with.  [canvas.width] and
    [canvas.height] are non-negative integers; the width is taken positive
    (the captured report container is never zero pixels wide), so that
    [canvas.height * imgWidth / canvas.width] is a finite number. *)
Record Canvas := mkCanvas {
  cv_width : positive;
  cv_height : N;
  cv_png : string   (* the result of canvas.toDataURL for PNG *)
}.

Definition widthOf (c : Canvas) : Q := inject_Z (Zpos (cv_width c)).
Definition heightOf (c : Canvas) : Q := inject_Z (Z.of_N (cv_height c)).

(** What the handler leaves behind in the browser. *)
Inductive Effect :=
| Saved (filename : string) (d : Doc)
| ConsoleError (label : string) (e : Err)
| Alert (msg : string).

(** The environment of one invocation: how the html2canvas promise settles
    and which library calls of the [then] callback throw (calls are numbered
    from 0 in execution order). *)
Record Env := mkEnv {
  capture : Settled Canvas;
  throws : nat -> option Err
}.

(** State of the [then] callback: number of library calls made so far, the
    [pdf] object, and the effects so far. *)
Record St := mkSt {
  calls : nat;
  pdf : Doc;
  log : list Effect
}.

Inductive Outcome (A : Type) : Type :=
| Ok (a : A) (s : St)
| Throw (e : Err) (s : St)
| OutOfFuel.
Arguments Ok {A} a s.
Arguments Throw {A} e s.
Arguments OutOfFuel {A}.

Definition M (A : Type) : Type := St -> Outcome A.

Definition ret {A} (a : A) : M A := fun s => Ok a s.

Definition bind {A B} (m : M A) (k : A -> M B) : M B :=
  fun s =>
    match m s with
    | Ok a s' => k a s'
    | Throw e s' => Throw e s'
    | OutOfFuel => OutOfFuel
    end.

Notation "x <- m ;; k" := (bind m (fun x => k))
  (at level 61, m at next level, right associativity).
Notation "m ;; k" := (bind m (fun _ => k))
  (at level 61, right associativity).

Definition diverge {A} : M A := fun _ => OutOfFuel.

Section Callback.
(** Which library calls of the callback throw. *)
Variable throwsAt : nat -> option Err.

(** Entering a library call: it throws when the environment says so. *)
Definition libcall : M unit :=
  fun s =>
    match throwsAt (calls s) with
    | Some e => Throw e s
    | None => Ok tt (mkSt (S (calls s)) (pdf s) (log s))
    end.

Definition update (f : Doc -> Doc) : M unit :=
  fun s => Ok tt (mkSt (calls s) (f (pdf s)) (log s)).

Definition emit (ev : Effect) : M unit :=
  fun s => Ok tt (mkSt (calls s) (pdf s) (log s ++ [ev])).

Definition toDataURL (c : Canvas) : M string :=
  libcall ;; ret (cv_png c).

Definition newJsPDF : M unit :=
  libcall ;; update (fun _ => blank).

Definition pdf_addImage (data format : string) (x y w h : Q)
           (alias compression : string) : M unit :=
  libcall ;;
  update (addImage (mkPlacement data format x y w h alias compression)).

Definition pdf_addPage : M unit :=
  libcall ;; update addPage.

Definition pdf_save (filename : string) : M unit :=
  libcall ;;
  fun s => emit (Saved filename (pdf s)) s.

(** The [while (heightLeft >= 0)] loop (lines 91-96). *)
Fixpoint addPagesWhile (fuel : nat) (imgData : string)
         (imgWidth pageHeight imgHeight heightLeft : Q) : M unit :=
  if Qle_bool 0 heightLeft then
    match fuel with
    | O => diverge
    | S fuel' =>
        let position := heightLeft - imgHeight in
        pdf_addPage ;;
        pdf_addImage imgData "PNG" 0 position imgWidth imgHeight "" "FAST" ;;
        addPagesWhile fuel' imgData imgWidth pageHeight imgHeight
                      (heightLeft - pageHeight)
    end
  else ret tt.

(** Number of iterations the loop is given: it never needs more when the
    page height is positive (see [addPagesWhile_outcome]). *)
Definition loopFuel (pageHeight imgHeight : Q) : nat :=
  Z.to_nat (Qfloor (imgHeight / pageHeight)).

(** Lines 83-96: the first page, then the loop. *)
Definition paginate (imgData : string)
           (imgWidth pageHeight imgHeight : Q) : M unit :=
  let heightLeft := imgHeight in
  let position := 0 in
  pdf_addImage imgData "PNG" 0 position imgWidth imgHeight "" "FAST" ;;
  let heightLeft := heightLeft - pageHeight in
  addPagesWhile (loopFuel pageHeight imgHeight) imgData
                imgWidth pageHeight imgHeight heightLeft.

Definition imgWidth : Q := 210.   (* A4 width in mm *)
Definition pageHeight : Q := 297. (* A4 height in mm *)

Definition imgHeightOf (c : Canvas) : Q :=
  heightOf c * imgWidth / widthOf c.

(** Lines 72-96: everything the callback does before saving. *)
Definition buildDocument (canvas : Canvas) : M unit :=
  imgData <- toDataURL canvas ;;
  newJsPDF ;;
  paginate imgData imgWidth pageHeight (imgHeightOf canvas).

(** The [then] callback. *)
Definition onCaptured (canvas : Canvas) : M unit :=
  buildDocument canvas ;;
  pdf_save "CRO_Analysis_Report.pdf".

End Callback.

(** The [catch] callback. *)
Definition onRejected (err : Err) (l : list Effect) : list Effect :=
  l ++ [ConsoleError "Error creating PDF:" err;
        Alert "Failed to generate PDF. Please try again."].

Definition start (history : list Effect) : St := mkSt 0 blank history.

(** [handleDownloadPDF], run after the effects [history] of earlier
    handlers; [None] when the page loop never ends. *)
Definition handleDownloadPDF (env : Env) (history : list Effect)
  : option (list Effect) :=
  match capture env with
  | Rejected e => Some (onRejected e history)
  | Resolved canvas =>
      match onCaptured (throws env) canvas (start history) with
      | Ok _ s => Some (log s)
      | Throw e s => Some (onRejected e (log s))
      | OutOfFuel => None
      end
  end.

(** No library call throws. *)
Definition noThrow : nat -> option Err := fun _ => None.

Definition quiet (c : Canvas) : Env := mkEnv (Resolved c) noThrow.

(** A capture two pages tall, with the fifth library call (the [addImage]
    of the second page) throwing. *)
Definition failingSecondPage : Env :=
  mkEnv (Resolved (mkCanvas 210 594 ""))
        (fun n => if Nat.eqb n 4 then Some "addImage failed" else None).

(** Behaviour of the libraries on an empty capture, which the handler relies
    on without a check of its own: for a canvas of height 0 [toDataURL]
    returns the empty data URL and jsPDF refuses it, so the first
    [pdf.addImage] (library call number 2, after [toDataURL] and
    [new jsPDF]) throws. *)
Definition rejectsEmptyImage (env : Env) : Prop :=
  forall c,
    capture env = Resolved c -> cv_height c = 0%N -> throws env 2 <> None.

(** A capture of height 0 in such an environment. *)
Definition emptyCapture : Env :=
  mkEnv (Resolved (mkCanvas 210 0 "data:,"))
        (fun n => if Nat.eqb n 2 then Some "invalid image data" else None).

(** The document the pagination step (lines 83-96) builds in a fresh
    [pdf] when nothing throws. *)
Definition pagesFor (imgData : string) (imgWidth pageHeight imgHeight : Q)
  : option Doc :=
  match paginate noThrow imgData imgWidth pageHeight imgHeight (start []) with
  | Ok _ s => Some (pdf s)
  | _ => None
  end.

(** The files saved among some effects. *)
Definition savedDocs (l : list Effect) : list Doc :=
  flat_map (fun ev => match ev with Saved _ d => [d] | _ => [] end) l.

Definition alerts (l : list Effect) : list string :=
  flat_map (fun ev => match ev with Alert m => [m] | _ => [] end) l.

(** The drawing of the first page (line 87). *)
Definition firstPlacement (imgData : string) (imgWidth imgHeight : Q)
  : Placement :=
  mkPlacement imgData "PNG" 0 0 imgWidth imgHeight "" "FAST".

(** The drawing the loop makes while [heightLeft] has the given value. *)
Definition loopPlacement (imgData : string)
           (imgWidth imgHeight heightLeft : Q) : Placement :=
  mkPlacement imgData "PNG" 0 (heightLeft - imgHeight) imgWidth imgHeight
              "" "FAST".

(** The pages [n] iterations of the loop append, starting from
    [heightLeft]. *)
Fixpoint extraPages (n : nat) (imgData : string)
         (imgWidth pageHeight imgHeight heightLeft : Q) : list PageContent :=
  match n with
  | O => []
  | S n' =>
      [loopPlacement imgData imgWidth imgHeight heightLeft]
        :: extraPages n' imgData imgWidth pageHeight imgHeight
                      (heightLeft - pageHeight)
  end.

End Exporter.

(** ** The analysis handler and the view *)

Module Analyzer.
Import JS.

Section WithReport.
(** The payload of a successful answer of the analysis backend
    ([response.data]); the handlers never look inside it.  It is taken to be
    a report object: a truthy value carrying the [site_data] and [scores]
    the render reads.  A null, empty or malformed body is outside the
    model. *)
Variable Report : Type.

(** The four [useState] cells of [App]. *)
Record AppState := mkApp {
  url : string;
  loading : bool;
  results : option Report;   (* [None] is JavaScript's [null] *)
  error : option string
}.

Definition initial : AppState := mkApp "" false None None.

Definition setUrl (u : string) (st : AppState) : AppState :=
  mkApp u (loading st) (results st) (error st).
Definition setLoading (b : bool) (st : AppState) : AppState :=
  mkApp (url st) b (results st) (error st).
Definition setResults (r : option Report) (st : AppState) : AppState :=
  mkApp (url st) (loading st) r (error st).
Definition setError (e : option string) (st : AppState) : AppState :=
  mkApp (url st) (loading st) (results st) e.

(** [axios.post(endpoint, { url })]. *)
Record Request := mkRequest {
  endpoint : string;
  body_url : string
}.

(** [handleAnalyze] up to its [await]: the state it leaves and the
    request it issues, if any. *)
Definition handleAnalyze_begin (st : AppState)
  : AppState * option Request :=
  if (url st =? "")%string then
    (setError (Some "Please enter a website URL") st, None)
  else
    let st1 := setLoading true st in
    let st2 := setError None st1 in
    (st2, Some (mkRequest "http://localhost:8000/analyze" (url st))).

(** [handleAnalyze] after its [await], applied to the state of the view
    at that moment: the [try] body, the [catch] and the [finally].  The
    second component is what is written by [console.error]. *)
Definition handleAnalyze_resume (answer : Settled Report) (st : AppState)
  : AppState * list Err :=
  match answer with
  | Resolved data =>
      let st1 := setResults (Some data) st in
      (setLoading false st1, [])
  | Rejected err =>
      let st1 :=
        setError (Some "Failed to analyze website. Please try another URL.")
                 st in
      (setLoading false st1, [err])
  end.

(** *** The view as a transition system *)

(** What can happen to the view: the user types in the input, clicks one
    of the two buttons, or an outstanding operation settles. *)
Inductive UiEvent :=
| TypeUrl (u : string)
| ClickAnalyze
| AnalysisSettles (answer : Settled Report)
| ClickDownload
| ExportSettles.

Record View := mkView {
  app : AppState;
  analysesInFlight : nat;
  exportsInFlight : nat
}.

Definition mounted : View := mkView initial 0 0.

(** [<button onClick={handleAnalyze} disabled={loading}>]. *)
Definition analyzeEnabled (st : AppState) : bool := negb (loading st).

(** The download button carries no [disabled] attribute; it is rendered
    whenever [results] is set. *)
Definition downloadEnabled (st : AppState) : bool :=
  match results st with
  | Some _ => true
  | None => false
  end.

Definition step (v : View) (ev : UiEvent) : option View :=
  match ev with
  | TypeUrl u =>
      Some (mkView (setUrl u (app v))
                   (analysesInFlight v) (exportsInFlight v))
  | ClickAnalyze =>
      if analyzeEnabled (app v) then
        match handleAnalyze_begin (app v) with
        | (st', Some _) =>
            Some (mkView st' (S (analysesInFlight v)) (exportsInFlight v))
        | (st', None) =>
            Some (mkView st' (analysesInFlight v) (exportsInFlight v))
        end
      else None
  | AnalysisSettles answer =>
      match analysesInFlight v with
      | S n =>
          Some (mkView (fst (handleAnalyze_resume answer (app v)))
                       n (exportsInFlight v))
      | O => None
      end
  | ClickDownload =>
      if downloadEnabled (app v) then
        Some (mkView (app v) (analysesInFlight v) (S (exportsInFlight v)))
      else None
  | ExportSettles =>
      match exportsInFlight v with
      | S n => Some (mkView (app v) (analysesInFlight v) n)
      | O => None
      end
  end.

Fixpoint run (v : View) (evs : list UiEvent) : option View :=
  match evs with
  | [] => Some v
  | ev :: evs' =>
      match step v ev with
      | Some v' => run v' evs'
      | None => None
      end
  end.

Definition reachable (v : View) : Prop :=
  exists evs, run mounted evs = Some v.

(** While a request is outstanding no error is set. *)
Definition quietWhileLoading (v : View) : Prop :=
  loading (app v) = true -> error (app v) = None.

(** *** What the view shows (lines 139-153) *)

(** [{error && <div className="error">{error}</div>}]: the banner is there
    when [error] is a non-empty string. *)
Definition errorBanner (st : AppState) : option string :=
  match error st with
  | Some msg => if (msg =? "")%string then None else Some msg
  | None => None
  end.

(** [{loading && <div className="loading">...}]. *)
Definition spinnerShown (st : AppState) : bool := loading st.

(** The loading flag and the count of outstanding requests agree. *)
Definition inSync (v : View) : Prop :=
  (loading (app v) = true /\ analysesInFlight v = 1%nat)
  \/ (loading (app v) = false /\ analysesInFlight v = 0%nat).

End WithReport.

Arguments mkApp {Report}.
Arguments url {Report}.
Arguments loading {Report}.
Arguments results {Report}.
Arguments error {Report}.
Arguments initial {Report}.
Arguments setUrl {Report}.
Arguments setLoading {Report}.
Arguments setResults {Report}.
Arguments setError {Report}.
Arguments handleAnalyze_begin {Report}.
Arguments handleAnalyze_resume {Report}.
Arguments TypeUrl {Report}.
Arguments ClickAnalyze {Report}.
Arguments AnalysisSettles {Report}.
Arguments ClickDownload {Report}.
Arguments ExportSettles {Report}.
Arguments mkView {Report}.
Arguments app {Report}.
Arguments analysesInFlight {Report}.
Arguments exportsInFlight {Report}.
Arguments mounted {Report}.
Arguments analyzeEnabled {Report}.
Arguments downloadEnabled {Report}.
Arguments step {Report}.
Arguments run {Report}.
Arguments reachable {Report}.
Arguments inSync {Report}.
Arguments quietWhileLoading {Report}.
Arguments errorBanner {Report}.
Arguments spinnerShown {Report}.

(** The view after a URL has been typed and Analyze clicked. *)
Definition analysing : View unit :=
  mkView (mkApp "https://example.com" true None None) 1 0.

(** The view once the analysis of that URL has succeeded. *)
Definition reported : View unit :=
  mkView (mkApp "https://example.com" false (Some tt) None) 0 0.

End Analyzer.

(** * Facts about the export *)

Module ExporterFacts.
Import JS Pdf Exporter.

Lemma inject_succ (k : nat) :
  inject_Z (Z.of_nat (S k)) == inject_Z (Z.of_nat k) + 1.
Proof.
  rewrite Nat2Z.inj_succ. unfold Z.succ. now rewrite inject_Z_plus.
Qed.

Lemma libcall_noThrow (s : St) :
  libcall noThrow s = Ok tt (mkSt (S (calls s)) (pdf s) (log s)).
Proof. reflexivity. Qed.

Lemma pagesOf_next (pl : Placement) (d : Doc) :
  pagesOf (addImage pl (addPage d)) = pagesOf d ++ [[pl]].
Proof. reflexivity. Qed.

(** The loop makes exactly [k] iterations when [heightLeft] lies in
    [[(k-1)*p, k*p)] (below [0] for [k = 0]), whatever fuel it has beyond
    [k]. *)
Lemma addPagesWhile_noThrow (k : nat) :
  forall (fuel : nat) (data : string) (w p h hl : Q) (s : St),
    0 < p ->
    hl + p < (inject_Z (Z.of_nat k) + 1) * p ->
    ((0 < k)%nat -> inject_Z (Z.of_nat k) * p <= hl + p) ->
    (k <= fuel)%nat ->
    exists s',
      addPagesWhile noThrow fuel data w p h hl s = Ok tt s'
      /\ pagesOf (pdf s') = pagesOf (pdf s) ++ extraPages k data w p h hl
      /\ log s' = log s
      /\ calls s' = (calls s + 2 * k)%nat.
Proof.
  induction k as [|k IH]; intros fuel data w p h hl s Hp Hup Hlow Hfuel.
  - assert (Hneg : Qle_bool 0 hl = false).
    { destruct (Qle_bool 0 hl) eqn:E; [|reflexivity].
      apply Qle_bool_iff in E.
      change (inject_Z (Z.of_nat 0)) with 0 in Hup. lra. }
    exists s. destruct fuel; simpl; rewrite Hneg;
      (split; [reflexivity|]); rewrite app_nil_r; repeat split; lia.
  - assert (Hk : inject_Z (Z.of_nat (S k)) * p <= hl + p) by (apply Hlow; lia).
    rewrite inject_succ in Hk, Hup.
    assert (Hk0 : 0 <= inject_Z (Z.of_nat k)).
    { change 0 with (inject_Z 0). rewrite <- Zle_Qle. lia. }
    assert (Hkp : 0 <= inject_Z (Z.of_nat k) * p) by (apply Qmult_le_0_compat; lra).
    assert (Hpos : Qle_bool 0 hl = true) by (apply Qle_bool_iff; lra).
    destruct fuel as [|fuel]; [lia|].
    destruct (IH fuel data w p h (hl - p)
                 (mkSt (S (S (calls s)))
                       (addImage (loopPlacement data w h hl) (addPage (pdf s)))
                       (log s)) Hp) as (s' & Hrun & Hpages & Hlog & Hcalls).
    + lra.
    + intros _. lra.
    + lia.
    + exists s'. simpl addPagesWhile. rewrite Hpos.
      split; [exact Hrun|]. simpl in *. rewrite Hpages, Hlog, Hcalls.
      rewrite pagesOf_next, <- app_assoc. repeat split. lia.
Qed.

(** [loopFuel p h] is the number [k] with [k*p <= h < (k+1)*p] (and [0]
    when [h] is negative). *)
Lemma loopFuel_bounds (p h : Q) :
  0 < p ->
  h < (inject_Z (Z.of_nat (loopFuel p h)) + 1) * p
  /\ ((0 < loopFuel p h)%nat ->
      inject_Z (Z.of_nat (loopFuel p h)) * p <= h).
Proof.
  intros Hp. unfold loopFuel.
  assert (Hx : h / p * p == h) by (field; lra).
  pose proof (Qfloor_le (h / p)) as Hlo.
  pose proof (Qlt_floor (h / p)) as Hhi.
  rewrite inject_Z_plus in Hhi. change (inject_Z 1) with 1 in Hhi.
  set (z := Qfloor (h / p)) in *.
  destruct (Z_lt_le_dec z 0) as [Hneg|Hnn].
  - replace (Z.to_nat z) with 0%nat by lia.
    change (inject_Z (Z.of_nat 0)) with 0. split; [|lia].
    assert (Hz : inject_Z z + 1 <= 0).
    { assert (Hz : inject_Z (z + 1) <= inject_Z 0)
        by (rewrite <- Zle_Qle; lia).
      rewrite inject_Z_plus in Hz. exact Hz. }
    assert (Hq : h / p < 0) by lra.
    apply (Qmult_lt_r _ _ p Hp) in Hq. lra.
  - rewrite Z2Nat.id by exact Hnn. split.
    + apply (Qmult_lt_r _ _ p Hp) in Hhi. lra.
    + intros _. apply (Qmult_le_r _ _ p Hp) in Hlo. lra.
Qed.

(** The pagination step in a quiet environment, from any state whose
    document is fresh. *)
Lemma paginate_noThrow (data : string) (w p h : Q) (s : St) :
  0 < p ->
  pdf s = blank ->
  exists s',
    paginate noThrow data w p h s = Ok tt s'
    /\ pagesOf (pdf s') =
         [firstPlacement data w h]
           :: extraPages (loopFuel p h) data w p h (h - p)
    /\ log s' = log s.
Proof.
  intros Hp Hblank.
  destruct (loopFuel_bounds p h Hp) as [Hup Hlow].
  destruct (addPagesWhile_noThrow (loopFuel p h) (loopFuel p h) data w p h
              (h - p)
              (mkSt (S (calls s)) (addImage (firstPlacement data w h) (pdf s))
                    (log s)) Hp)
    as (s' & Hrun & Hpages & Hlog & _).
  - lra.
  - intros Hk. specialize (Hlow Hk). lra.
  - lia.
  - exists s'. split; [exact Hrun|].
    simpl in Hpages, Hlog. rewrite Hpages, Hlog, Hblank. split; reflexivity.
Qed.

Lemma pagesFor_shape (data : string) (w p h : Q) :
  0 < p ->
  exists d,
    pagesFor data w p h = Some d
    /\ pagesOf d =
         [firstPlacement data w h]
           :: extraPages (loopFuel p h) data w p h (h - p).
Proof.
  intros Hp.
  destruct (paginate_noThrow data w p h (start []) Hp eq_refl)
    as (s' & Hrun & Hpages & _).
  exists (pdf s'). unfold pagesFor. rewrite Hrun. split; [reflexivity|exact Hpages].
Qed.

Lemma extraPages_length (n : nat) :
  forall data w p h hl, List.length (extraPages n data w p h hl) = n.
Proof. induction n; intros; simpl; [reflexivity|now rewrite IHn]. Qed.

(** The [i]-th page the loop appends draws the image [i+1] page heights
    up. *)
Lemma extraPages_nth (n : nat) :
  forall data w p h hl i pg,
    nth_error (extraPages n data w p h hl) i = Some pg ->
    exists pl,
      pg = [pl] /\ pl_h pl = h /\ pl_w pl = w /\ pl_x pl = 0
      /\ pl_data pl = data
      /\ pl_y pl == hl - inject_Z (Z.of_nat i) * p - h.
Proof.
  induction n as [|n IH]; intros data w p h hl i pg Hnth.
  - destruct i; discriminate.
  - destruct i as [|i]; simpl in Hnth.
    + injection Hnth as <-. exists (loopPlacement data w h hl).
      repeat split. unfold loopPlacement; cbn [pl_y].
      change (inject_Z (Z.of_nat 0)) with 0. lra.
    + destruct (IH _ _ _ _ _ _ _ Hnth) as (pl & -> & Hh & Hw & Hx & Hd & Hy).
      exists pl. repeat split; try assumption.
      rewrite Hy, inject_succ. lra.
Qed.


(** *** The bands shown by the pages *)

Lemma tiles_from_compat (bs : list Band) (a b upto : Q) :
  a == b -> tiles a bs upto -> tiles b bs upto.
Proof.
  intros Hab. destruct bs as [|[t e] rest]; simpl.
  - intros H. now rewrite <- Hab.
  - intros (Ht & Hle & Hrest). repeat split; try assumption.
    now rewrite <- Hab.
Qed.

Lemma bandTop_loop (data : string) (w h hl : Q) :
  hl <= h -> bandTop (loopPlacement data w h hl) == h - hl.
Proof.
  intros Hle. unfold bandTop, loopPlacement; cbn [pl_y].
  rewrite Q.max_r by lra. lra.
Qed.

Lemma bandBottom_full (data : string) (w p h hl : Q) :
  p <= hl -> bandBottom p (loopPlacement data w h hl) == h - hl + p.
Proof.
  intros Hle. unfold bandBottom, loopPlacement; cbn [pl_y pl_h].
  rewrite Q.min_r by lra. lra.
Qed.

Lemma bandBottom_last (data : string) (w p h hl : Q) :
  hl <= p -> bandBottom p (loopPlacement data w h hl) == h.
Proof.
  intros Hle. unfold bandBottom, loopPlacement; cbn [pl_y pl_h].
  rewrite Q.min_l by lra. reflexivity.
Qed.

Lemma bands_extraPages_S (n : nat) (data : string) (w p h hl : Q) :
  map (bandOf p) (List.concat (extraPages (S n) data w p h hl)) =
  bandOf p (loopPlacement data w h hl)
    :: map (bandOf p) (List.concat (extraPages n data w p h (hl - p))).
Proof. reflexivity. Qed.

(** The bands of [n+1] iterations started with [n*p <= hl < (n+1)*p] split
    the rest of the image, from row [h - hl] on. *)
Lemma extraPages_tiles (n : nat) :
  forall data w p h hl,
    0 < p -> hl <= h ->
    inject_Z (Z.of_nat n) * p <= hl ->
    hl < (inject_Z (Z.of_nat n) + 1) * p ->
    tiles (h - hl)
          (map (bandOf p) (List.concat (extraPages (S n) data w p h hl))) h.
Proof.
  induction n as [|n IH]; intros data w p h hl Hp Hh Hlo Hhi.
  - change (inject_Z (Z.of_nat 0)) with 0 in *.
    pose proof (bandTop_loop data w h hl Hh) as Ht.
    assert (Hb : bandBottom p (loopPlacement data w h hl) == h)
      by (apply bandBottom_last; lra).
    rewrite bands_extraPages_S.
    cbn [extraPages List.concat map tiles bandOf fst snd].
    split; [exact Ht|]. split; [lra|exact Hb].
  - rewrite inject_succ in Hlo, Hhi.
    assert (Hk0 : 0 <= inject_Z (Z.of_nat n)).
    { change 0 with (inject_Z 0). rewrite <- Zle_Qle. lia. }
    assert (Hkp : 0 <= inject_Z (Z.of_nat n) * p)
      by (apply Qmult_le_0_compat; lra).
    pose proof (bandTop_loop data w h hl Hh) as Ht.
    assert (Hb : bandBottom p (loopPlacement data w h hl) == h - hl + p)
      by (apply bandBottom_full; lra).
    rewrite bands_extraPages_S. cbn [tiles bandOf fst snd].
    split; [exact Ht|]. split; [lra|].
    apply tiles_from_compat with (a := h - (hl - p)); [lra|].
    apply IH; lra.
Qed.

Lemma extraPages_ascending (n : nat) :
  forall data w p h hl,
    0 < p -> hl <= h ->
    ascending (map (bandOf p) (List.concat (extraPages n data w p h hl))).
Proof.
  induction n as [|n IH]; intros data w p h hl Hp Hh; [exact I|].
  rewrite bands_extraPages_S. cbn [ascending]. split.
  - destruct n as [|n]; [exact I|].
    rewrite bands_extraPages_S. cbn [bandOf fst].
    pose proof (bandTop_loop data w h hl Hh).
    pose proof (bandTop_loop data w h (hl - p) ltac:(lra)). lra.
  - apply IH; lra.
Qed.

Lemma bandsOf_pagesFor (data : string) (w p h : Q) (d : Doc) :
  pagesOf d =
    [firstPlacement data w h]
      :: extraPages (loopFuel p h) data w p h (h - p) ->
  bandsOf p d =
    bandOf p (firstPlacement data w h)
      :: map (bandOf p)
             (List.concat (extraPages (loopFuel p h) data w p h (h - p))).
Proof. intros H. unfold bandsOf, placementsOf. now rewrite H. Qed.

(** C3.  For every image height [h > 0] and page height [p > 0] the
    pagination step ends, and the bands its pages show split [[0, h)]: the
    first band starts at row 0, every other band starts exactly where the
    previous one ends (no gap, no overlap), the last one ends at row [h],
    and the offsets of the bands strictly increase; there is one band per
    page. *)
Theorem bands_cover_image (data : string) (w p h : Q) :
  0 < p -> 0 < h ->
  exists d,
    pagesFor data w p h = Some d
    /\ List.length (bandsOf p d) = List.length (pagesOf d)
    /\ bandsOf p d <> []
    /\ tiles 0 (bandsOf p d) h
    /\ ascending (bandsOf p d).
Proof.
  intros Hp Hh.
  destruct (pagesFor_shape data w p h Hp) as (d & Hrun & Hpages).
  destruct (loopFuel_bounds p h Hp) as [Hup Hlow].
  exists d. split; [exact Hrun|].
  rewrite (bandsOf_pagesFor _ _ _ _ _ Hpages).
  assert (Htop : bandTop (firstPlacement data w h) == 0).
  { unfold bandTop, firstPlacement; cbn [pl_y]. rewrite Q.max_l; lra. }
  split.
  { rewrite Hpages. cbn [List.length]. f_equal.
    rewrite length_map, extraPages_length.
    generalize (loopFuel p h) (h - p). intros n.
    induction n as [|n IH]; intros hl; [reflexivity|].
    simpl. now rewrite IH. }
  split; [discriminate|].
  destruct (loopFuel p h) as [|n] eqn:Hn.
  - change (inject_Z (Z.of_nat 0)) with 0 in Hup.
    cbn [extraPages List.concat map tiles ascending bandOf fst snd].
    assert (Hbot : bandBottom p (firstPlacement data w h) == h).
    { unfold bandBottom, firstPlacement; cbn [pl_y pl_h].
      rewrite Q.min_l; lra. }
    repeat split; try assumption. lra.
  - specialize (Hlow ltac:(lia)). rewrite inject_succ in Hlow, Hup.
    assert (Hk0 : 0 <= inject_Z (Z.of_nat n)).
    { change 0 with (inject_Z 0). rewrite <- Zle_Qle. lia. }
    assert (Hkp : 0 <= inject_Z (Z.of_nat n) * p)
      by (apply Qmult_le_0_compat; lra).
    assert (Hbot : bandBottom p (firstPlacement data w h) == p).
    { unfold bandBottom, firstPlacement; cbn [pl_y pl_h].
      rewrite Q.min_r; lra. }
    split.
    + cbn [tiles bandOf fst snd].
      split; [exact Htop|]. split; [lra|].
      apply tiles_from_compat with (a := h - (h - p)); [lra|].
      apply extraPages_tiles; lra.
    + cbn [ascending]. split.
      * rewrite bands_extraPages_S. cbn [bandOf fst].
        pose proof (bandTop_loop data w h (h - p) ltac:(lra)). lra.
      * apply extraPages_ascending; lra.
Qed.

Lemma bands_cover_image_witness :
  0 < 297 /\ 0 < 1001 # 2 /\
  exists d,
    pagesFor "" 210 297 (1001 # 2) = Some d
    /\ List.length (bandsOf 297 d) = List.length (pagesOf d)
    /\ bandsOf 297 d <> []
    /\ tiles 0 (bandsOf 297 d) (1001 # 2)
    /\ ascending (bandsOf 297 d).
Proof.
  split; [reflexivity|]. split; [reflexivity|].
  apply (bands_cover_image "" 210 297 (1001 # 2)); reflexivity.
Defined.


(** *** The exported document *)

Lemma pagesOf_inj (d1 d2 : Doc) : pagesOf d1 = pagesOf d2 -> d1 = d2.
Proof.
  destruct d1 as [f1 c1], d2 as [f2 c2]. unfold pagesOf; cbn [finished current].
  intros H. apply app_inj_tail in H. destruct H as [-> ->]. reflexivity.
Qed.

Lemma pageHeight_pos : 0 < pageHeight.
Proof. reflexivity. Qed.

(** When nothing throws, the export saves exactly the document of the
    pagination step, under the fixed file name, whatever happened before. *)
Lemma handleDownloadPDF_quiet (c : Canvas) (history : list Effect) :
  exists d,
    pagesFor (cv_png c) imgWidth pageHeight (imgHeightOf c) = Some d
    /\ handleDownloadPDF (quiet c) history
       = Some (history ++ [Saved "CRO_Analysis_Report.pdf" d]).
Proof.
  destruct (pagesFor_shape (cv_png c) imgWidth pageHeight (imgHeightOf c)
              pageHeight_pos) as (d & Hd & Hpages).
  exists d. split; [exact Hd|].
  destruct (paginate_noThrow (cv_png c) imgWidth pageHeight (imgHeightOf c)
              (mkSt 2 blank history) pageHeight_pos eq_refl)
    as (s' & Hrun & Hpages' & Hlog).
  assert (Hpdf : pdf s' = d) by (apply pagesOf_inj; congruence).
  unfold handleDownloadPDF, quiet; cbn [capture throws].
  unfold onCaptured, buildDocument, bind, toDataURL, newJsPDF, bind, ret,
    update, start.
  rewrite !libcall_noThrow. cbn [calls pdf log].
  rewrite Hrun. unfold pdf_save, bind. rewrite libcall_noThrow.
  unfold emit; cbn [calls pdf log]. now rewrite Hpdf, Hlog.
Qed.

(** Number of pages: one more than the number of whole pages that fit in
    the image. *)
Lemma pageCount (data : string) (w p h : Q) :
  0 < p ->
  exists d,
    pagesFor data w p h = Some d
    /\ List.length (pagesOf d) = S (loopFuel p h).
Proof.
  intros Hp. destruct (pagesFor_shape data w p h Hp) as (d & Hd & Hpages).
  exists d. split; [exact Hd|].
  rewrite Hpages. cbn [List.length]. now rewrite extraPages_length.
Qed.

Lemma loopFuel_integers (p h : Z) :
  loopFuel (inject_Z p) (inject_Z h) = Z.to_nat (h / p).
Proof. unfold loopFuel. now rewrite <- Zdiv_Qdiv. Qed.

(** For integer heights the page count is [h / p + 1]: the quotient rounded
    up when [p] does not divide [h], and one more than the quotient when it
    does. *)
Lemma pageCount_integers (data : string) (w : Q) (p h : Z) :
  (0 < p)%Z -> (0 <= h)%Z ->
  exists d,
    pagesFor data w (inject_Z p) (inject_Z h) = Some d
    /\ Z.of_nat (List.length (pagesOf d)) = (h / p + 1)%Z.
Proof.
  intros Hp Hh.
  assert (HpQ : 0 < inject_Z p).
  { change 0 with (inject_Z 0). now rewrite <- Zlt_Qlt. }
  destruct (pageCount data w _ (inject_Z h) HpQ) as (d & Hd & Hlen).
  exists d. split; [exact Hd|].
  rewrite Hlen, loopFuel_integers.
  pose proof (Z.div_pos h p Hh Hp). lia.
Qed.

Lemma pageCount_not_multiple (data : string) (w : Q) (p h : Z) :
  (0 < p)%Z -> (0 <= h)%Z -> (h mod p <> 0)%Z ->
  exists d,
    pagesFor data w (inject_Z p) (inject_Z h) = Some d
    /\ Z.of_nat (List.length (pagesOf d)) = ((h + p - 1) / p)%Z.
Proof.
  intros Hp Hh Hmod.
  destruct (pageCount_integers data w p h Hp Hh) as (d & Hd & Hlen).
  exists d. split; [exact Hd|]. rewrite Hlen.
  pose proof (Z.mod_pos_bound h p Hp) as Hb.
  pose proof (Z.div_mod h p ltac:(lia)) as Hdm.
  apply Z.div_unique with (r := (h mod p - 1)%Z); lia.
Qed.

Lemma pageCount_multiple (data : string) (w : Q) (p h : Z) :
  (0 < p)%Z -> (0 <= h)%Z -> (h mod p = 0)%Z ->
  exists d,
    pagesFor data w (inject_Z p) (inject_Z h) = Some d
    /\ Z.of_nat (List.length (pagesOf d)) = (h / p + 1)%Z.
Proof. intros Hp Hh _. now apply pageCount_integers. Qed.

(** The band of the last of [n+1] iterations started with
    [n*p <= hl < (n+1)*p] has height [hl - n*p]. *)
Lemma extraPages_last_band (n : nat) :
  forall data w p h hl dflt,
    0 < p -> hl <= h ->
    inject_Z (Z.of_nat n) * p <= hl ->
    hl < (inject_Z (Z.of_nat n) + 1) * p ->
    let b := last (map (bandOf p)
                       (List.concat (extraPages (S n) data w p h hl))) dflt in
    snd b - fst b == hl - inject_Z (Z.of_nat n) * p.
Proof.
  induction n as [|n IH]; intros data w p h hl dflt Hp Hh Hlo Hhi.
  - change (inject_Z (Z.of_nat 0)) with 0 in *.
    cbn [extraPages List.concat app map last bandOf fst snd].
    pose proof (bandTop_loop data w h hl Hh).
    pose proof (bandBottom_last data w p h hl ltac:(lra)). lra.
  - rewrite inject_succ in Hlo, Hhi.
    assert (Hk0 : 0 <= inject_Z (Z.of_nat n)).
    { change 0 with (inject_Z 0). rewrite <- Zle_Qle. lia. }
    assert (Hkp : 0 <= inject_Z (Z.of_nat n) * p)
      by (apply Qmult_le_0_compat; lra).
    rewrite bands_extraPages_S.
    specialize (IH data w p h (hl - p) dflt Hp ltac:(lra) ltac:(lra)
                   ltac:(lra)).
    rewrite bands_extraPages_S in IH |- *. cbn [last].
    cbv zeta in IH. rewrite IH, inject_succ. lra.
Qed.

(** The last band has height [h - p * (n - 1)] for the [n] pages emitted;
    for integer heights this is [h mod p], which is [0] when [p] divides
    [h]. *)
Lemma last_band_height (data : string) (w p h : Q) (dflt : Band) :
  0 < p -> 0 <= h ->
  exists d,
    pagesFor data w p h = Some d
    /\ snd (last (bandsOf p d) dflt) - fst (last (bandsOf p d) dflt)
       == h - p * inject_Z (Z.of_nat (List.length (pagesOf d) - 1)).
Proof.
  intros Hp Hh.
  destruct (pagesFor_shape data w p h Hp) as (d & Hrun & Hpages).
  destruct (loopFuel_bounds p h Hp) as [Hup Hlow].
  exists d. split; [exact Hrun|].
  rewrite (bandsOf_pagesFor _ _ _ _ _ Hpages), Hpages.
  cbn [List.length]. rewrite extraPages_length.
  replace (S (loopFuel p h) - 1)%nat with (loopFuel p h) by lia.
  destruct (loopFuel p h) as [|n] eqn:Hn.
  - change (inject_Z (Z.of_nat 0)) with 0 in *.
    cbn [extraPages List.concat map last bandOf fst snd].
    unfold bandBottom, bandTop, firstPlacement; cbn [pl_y pl_h].
    rewrite Q.min_l by lra. rewrite Q.max_l by lra. lra.
  - specialize (Hlow ltac:(lia)). rewrite inject_succ in Hlow, Hup.
    assert (Hk0 : 0 <= inject_Z (Z.of_nat n)).
    { change 0 with (inject_Z 0). rewrite <- Zle_Qle. lia. }
    assert (Hkp : 0 <= inject_Z (Z.of_nat n) * p)
      by (apply Qmult_le_0_compat; lra).
    pose proof (extraPages_last_band n data w p h (h - p) dflt Hp
                  ltac:(lra) ltac:(lra) ltac:(lra)) as Hlast.
    cbv zeta in Hlast. rewrite bands_extraPages_S in Hlast |- *.
    cbn [last]. rewrite Hlast, inject_succ. lra.
Qed.

(** C1.  A capture exactly two pages tall (210 x 594 pixels, hence
    594 mm = 2 * 297 mm) is exported on three pages, one more than
    [594 / 297]; the third page shows an empty band of the image.  Likewise
    the pagination step gives an image of height 2000 three pages of height
    1000. *)
Theorem exact_multiple_gets_extra_page :
  (exists d pl,
     handleDownloadPDF (quiet (mkCanvas 210 594 "")) []
       = Some [Saved "CRO_Analysis_Report.pdf" d]
     /\ imgHeightOf (mkCanvas 210 594 "") == 2 * pageHeight
     /\ List.length (pagesOf d) = 3%nat
     /\ nth_error (pagesOf d) 2 = Some [pl]
     /\ bandHeight pageHeight pl == 0)
  /\ (exists d,
        pagesFor "" imgWidth 1000 2000 = Some d
        /\ List.length (pagesOf d) = 3%nat).
Proof.
  split.
  - do 2 eexists. split; [vm_compute; reflexivity|].
    repeat split; reflexivity.
  - eexists. split; [vm_compute; reflexivity|reflexivity].
Qed.

(** C2.  For a capture exactly one page tall (210 x 297 pixels) the last
    band of the exported document has height 0: it is [h - p * (n - 1)]
    for the [n = 2] pages emitted, but it is not positive. *)
Theorem exact_multiple_last_band_empty :
  exists d pl,
    handleDownloadPDF (quiet (mkCanvas 210 297 "")) []
      = Some [Saved "CRO_Analysis_Report.pdf" d]
    /\ List.length (pagesOf d) = 2%nat
    /\ last (placementsOf d) (firstPlacement "" 0 0) = pl
    /\ bandHeight pageHeight pl
         == imgHeightOf (mkCanvas 210 297 "") - pageHeight * (2 - 1)
    /\ ~ 0 < bandHeight pageHeight pl.
Proof.
  eexists. eexists. split; [vm_compute; reflexivity|].
  repeat split; try reflexivity. vm_compute. discriminate.
Qed.


Lemma imgHeight_ratio (c : Canvas) :
  imgHeightOf c / pageHeight
  == inject_Z (Z.of_N (cv_height c) * 210)
     / inject_Z (Zpos (cv_width c) * 297).
Proof.
  unfold imgHeightOf, heightOf, widthOf, imgWidth, pageHeight.
  rewrite !inject_Z_mult.
  change (inject_Z 210) with 210. change (inject_Z 297) with 297.
  assert (Hw : ~ inject_Z (Zpos (cv_width c)) == 0).
  { intros H. assert (0 < inject_Z (Zpos (cv_width c))).
    { change 0 with (inject_Z 0). rewrite <- Zlt_Qlt. lia. }
    lra. }
  field. exact Hw.
Qed.

Lemma loopFuel_canvas (c : Canvas) :
  loopFuel pageHeight (imgHeightOf c)
  = Z.to_nat (Z.of_N (cv_height c) * 210 / (Zpos (cv_width c) * 297)).
Proof.
  unfold loopFuel. rewrite (Qfloor_comp _ _ (imgHeight_ratio c)).
  now rewrite <- Zdiv_Qdiv.
Qed.

(** C4.  When nothing throws, the exported document of a canvas [W] pixels
    wide and [H] pixels high has [floor (210 * H / (297 * W)) + 1] pages, and
    each of them, page [k] counted from 1, holds a single drawing of the
    whole image placed [(k - 1) * pageHeight] above the top of the page: at
    ordinate [-(k - 1) * pageHeight]. *)
Theorem page_draws_image_shifted_up (c : Canvas) (history : list Effect) :
  exists d,
    handleDownloadPDF (quiet c) history
      = Some (history ++ [Saved "CRO_Analysis_Report.pdf" d])
    /\ List.length (pagesOf d)
       = S (Z.to_nat (Z.of_N (cv_height c) * 210 / (Zpos (cv_width c) * 297)))
    /\ forall (k : nat),
         (1 <= k <= List.length (pagesOf d))%nat ->
         exists pl,
           nth_error (pagesOf d) (k - 1) = Some [pl]
           /\ pl_h pl = imgHeightOf c
           /\ pl_y pl == - (inject_Z (Z.of_nat (k - 1)) * pageHeight).
Proof.
  destruct (handleDownloadPDF_quiet c history) as (d & Hd & Hrun).
  exists d. split; [exact Hrun|].
  destruct (pagesFor_shape (cv_png c) imgWidth pageHeight (imgHeightOf c)
              pageHeight_pos) as (d' & Hd' & Hpages).
  assert (d' = d) by congruence. subst d'.
  split.
  { rewrite Hpages. cbn [List.length].
    now rewrite extraPages_length, loopFuel_canvas. }
  intros k Hk.
  destruct (nth_error (pagesOf d) (k - 1)) as [pg|] eqn:Hnth.
  - rewrite Hpages in Hnth.
    destruct (k - 1)%nat as [|i] eqn:Hi; cbn [nth_error] in Hnth.
    + injection Hnth as <-. eexists. split; [reflexivity|].
      split; [reflexivity|]. cbn [firstPlacement pl_y].
      change (inject_Z (Z.of_nat 0)) with 0. lra.
    + destruct (extraPages_nth _ _ _ _ _ _ _ _ Hnth)
        as (pl & -> & Hh & _ & _ & _ & Hy).
      exists pl. split; [reflexivity|]. split; [exact Hh|].
      rewrite Hy, inject_succ. lra.
  - apply nth_error_None in Hnth. lia.
Qed.

(** A capture 210 x 700 pixels (700 mm, between two and three page heights)
    has three pages; the second is drawn at -297 and the third at -594. *)
Lemma page_draws_image_shifted_up_witness :
  exists d pl2 pl3,
    handleDownloadPDF (quiet (mkCanvas 210 700 "")) []
      = Some ([] ++ [Saved "CRO_Analysis_Report.pdf" d])
    /\ List.length (pagesOf d) = 3%nat
    /\ nth_error (pagesOf d) 1 = Some [pl2]
    /\ pl_y pl2 == - (1 * pageHeight)
    /\ nth_error (pagesOf d) 2 = Some [pl3]
    /\ pl_y pl3 == - (2 * pageHeight).
Proof.
  destruct (page_draws_image_shifted_up (mkCanvas 210 700 "") [])
    as (d & Hrun & Hlen & Hpages).
  assert (Hthree : List.length (pagesOf d) = 3%nat) by exact Hlen.
  destruct (Hpages 2%nat) as (pl2 & Hn2 & _ & Hy2);
    [rewrite Hthree; split; repeat constructor|].
  destruct (Hpages 3%nat) as (pl3 & Hn3 & _ & Hy3);
    [rewrite Hthree; split; repeat constructor|].
  exists d, pl2, pl3. repeat split; assumption.
Defined.

(** An image shorter than a page is never given a second page. *)
Lemma loopFuel_short (p h : Q) : 0 < p -> h < p -> loopFuel p h = 0%nat.
Proof.
  intros Hp Hh. destruct (loopFuel_bounds p h Hp) as [_ Hlow].
  destruct (loopFuel p h) as [|n]; [reflexivity|exfalso].
  specialize (Hlow ltac:(lia)). rewrite inject_succ in Hlow.
  assert (Hk0 : 0 <= inject_Z (Z.of_nat n)).
  { change 0 with (inject_Z 0). rewrite <- Zle_Qle. lia. }
  assert (Hkp : 0 <= inject_Z (Z.of_nat n) * p)
    by (apply Qmult_le_0_compat; lra).
  lra.
Qed.

Lemma short_image_one_page (c : Canvas) (history : list Effect) :
  imgHeightOf c < pageHeight ->
  handleDownloadPDF (quiet c) history
    = Some (history ++
            [Saved "CRO_Analysis_Report.pdf"
                   (mkDoc [] [firstPlacement (cv_png c) imgWidth
                                             (imgHeightOf c)])]).
Proof.
  intros Hshort.
  destruct (handleDownloadPDF_quiet c history) as (d & Hd & Hrun).
  destruct (pagesFor_shape (cv_png c) imgWidth pageHeight (imgHeightOf c)
              pageHeight_pos) as (d' & Hd' & Hpages).
  assert (d' = d) by congruence. subst d'.
  rewrite (loopFuel_short _ _ pageHeight_pos Hshort) in Hpages.
  assert (Hdoc : d = mkDoc [] [firstPlacement (cv_png c) imgWidth
                                              (imgHeightOf c)])
    by (apply pagesOf_inj; exact Hpages).
  now rewrite Hrun, Hdoc.
Qed.

Lemma savedDocs_onRejected (e : Err) (l : list Effect) :
  savedDocs (onRejected e l) = savedDocs l.
Proof.
  unfold onRejected, savedDocs. rewrite flat_map_app. cbn [flat_map app].
  now rewrite app_nil_r.
Qed.

(** C5.  A capture of height 0 is not exported: the first [pdf.addImage]
    throws on the empty image (the handler has no check of its own and relies
    on the library here), so the export ends in the [catch] handler, with the
    console error and the alert, and no document is saved.  A capture that
    is not empty and strictly shorter than one page is exported, when
    nothing throws, on exactly one page, whose band is the whole image, rows
    [0] to [imgHeight]. *)
Theorem empty_capture_fails_short_capture_one_band
        (env : Env) (c : Canvas) (history : list Effect) :
  (capture env = Resolved c -> cv_height c = 0%N -> rejectsEmptyImage env ->
   exists e,
     handleDownloadPDF env history
       = Some (history ++
               [ConsoleError "Error creating PDF:" e;
                Alert "Failed to generate PDF. Please try again."])
     /\ savedDocs
          (history ++
           [ConsoleError "Error creating PDF:" e;
            Alert "Failed to generate PDF. Please try again."])
        = savedDocs history)
  /\ (0 < imgHeightOf c -> imgHeightOf c < pageHeight ->
      exists d pl,
        handleDownloadPDF (quiet c) history
          = Some (history ++ [Saved "CRO_Analysis_Report.pdf" d])
        /\ pagesOf d = [[pl]]
        /\ bandTop pl == 0
        /\ bandBottom pageHeight pl == imgHeightOf c).
Proof.
  split.
  - intros Hcap Hzero Hlib. specialize (Hlib c Hcap Hzero).
    assert (Hthrow : exists e s,
               buildDocument (throws env) c (start history) = Throw e s
               /\ log s = history).
    { unfold buildDocument, toDataURL, newJsPDF, paginate, pdf_addImage,
        bind, ret, libcall, update, start. cbn [calls pdf log].
      destruct (throws env 0) as [e0|]; [now exists e0; eexists|].
      cbn [calls pdf log].
      destruct (throws env 1) as [e1|]; [now exists e1; eexists|].
      cbn [calls pdf log].
      destruct (throws env 2) as [e2|]; [now exists e2; eexists|].
      now contradiction Hlib. }
    destruct Hthrow as (e & s & Hbuild & Hlog). exists e.
    split; [|apply savedDocs_onRejected].
    unfold handleDownloadPDF. rewrite Hcap. unfold onCaptured, bind.
    rewrite Hbuild. unfold onRejected. now rewrite Hlog.
  - intros Hpos Hshort.
    do 2 eexists. split; [apply (short_image_one_page c history Hshort)|].
    split; [reflexivity|].
    unfold bandBottom, bandTop, firstPlacement; cbn [pl_y pl_h]. split.
    + rewrite Q.max_l; lra.
    + rewrite Q.min_l by lra. reflexivity.
Qed.

Lemma empty_capture_fails_short_capture_one_band_witness :
  (exists e,
     handleDownloadPDF emptyCapture []
       = Some ([] ++
               [ConsoleError "Error creating PDF:" e;
                Alert "Failed to generate PDF. Please try again."])
     /\ savedDocs
          ([] ++
           [ConsoleError "Error creating PDF:" e;
            Alert "Failed to generate PDF. Please try again."])
        = savedDocs [])
  /\ (exists d pl,
        handleDownloadPDF (quiet (mkCanvas 210 100 "")) []
          = Some ([] ++ [Saved "CRO_Analysis_Report.pdf" d])
        /\ pagesOf d = [[pl]]
        /\ bandTop pl == 0
        /\ bandBottom pageHeight pl == imgHeightOf (mkCanvas 210 100 "")).
Proof.
  split.
  - apply (proj1 (empty_capture_fails_short_capture_one_band
                    emptyCapture (mkCanvas 210 0 "data:,") []));
      [reflexivity|reflexivity|].
    intros c Hc Hz. discriminate.
  - apply (proj2 (empty_capture_fails_short_capture_one_band
                    emptyCapture (mkCanvas 210 100 "") []));
      reflexivity.
Defined.

(** *** Failures *)

(** Whatever the library calls do, the loop ends within [k] iterations when
    [heightLeft < k * p], and it adds nothing to the effects. *)
Lemma addPagesWhile_outcome (throwsAt : nat -> option Err) (k : nat) :
  forall (fuel : nat) (data : string) (w p h hl : Q) (s : St),
    0 < p ->
    hl + p < (inject_Z (Z.of_nat k) + 1) * p ->
    (k <= fuel)%nat ->
    match addPagesWhile throwsAt fuel data w p h hl s with
    | Ok _ s' => log s' = log s
    | Throw _ s' => log s' = log s
    | OutOfFuel => False
    end.
Proof.
  induction k as [|k IH]; intros fuel data w p h hl s Hp Hup Hfuel.
  - change (inject_Z (Z.of_nat 0)) with 0 in Hup.
    assert (Hneg : Qle_bool 0 hl = false).
    { destruct (Qle_bool 0 hl) eqn:E; [|reflexivity].
      apply Qle_bool_iff in E. lra. }
    destruct fuel; simpl; rewrite Hneg; reflexivity.
  - rewrite inject_succ in Hup.
    destruct fuel as [|fuel]; [lia|]. cbn [addPagesWhile].
    destruct (Qle_bool 0 hl); [|reflexivity].
    unfold pdf_addPage, pdf_addImage, bind, libcall, update.
    destruct (throwsAt (calls s)); [reflexivity|]. cbn [calls pdf log].
    destruct (throwsAt (S (calls s))); [reflexivity|]. cbn [calls pdf log].
    match goal with
    | |- match addPagesWhile _ _ _ _ _ _ _ ?s1 with _ => _ end =>
        specialize (IH fuel data w p h (hl - p) s1 Hp ltac:(lra) ltac:(lia));
        destruct (addPagesWhile throwsAt fuel data w p h (hl - p) s1);
        exact IH
    end.
Qed.

Lemma buildDocument_outcome (throwsAt : nat -> option Err)
      (c : Canvas) (s : St) :
  match buildDocument throwsAt c s with
  | Ok _ s' => log s' = log s
  | Throw _ s' => log s' = log s
  | OutOfFuel => False
  end.
Proof.
  unfold buildDocument, toDataURL, newJsPDF, paginate, pdf_addImage, bind,
    ret, libcall, update.
  destruct (throwsAt (calls s)); [reflexivity|]. cbn [calls pdf log].
  destruct (throwsAt (S (calls s))); [reflexivity|]. cbn [calls pdf log].
  destruct (throwsAt (S (S (calls s)))); [reflexivity|]. cbn [calls pdf log].
  destruct (loopFuel_bounds pageHeight (imgHeightOf c) pageHeight_pos)
    as [Hup _].
  match goal with
  | |- match addPagesWhile _ ?f ?d ?w ?p ?h ?hl ?s1 with _ => _ end =>
      pose proof (addPagesWhile_outcome throwsAt f f d w p h hl s1
                    pageHeight_pos ltac:(lra) (le_n _)) as H;
      destruct (addPagesWhile throwsAt f d w p h hl s1); exact H
  end.
Qed.

(** The export always comes to an end. *)
Lemma handleDownloadPDF_total (env : Env) (history : list Effect) :
  exists l, handleDownloadPDF env history = Some l.
Proof.
  unfold handleDownloadPDF. destruct (capture env) as [c|e]; [|eauto].
  unfold onCaptured, bind.
  pose proof (buildDocument_outcome (throws env) c (start history)) as H.
  destruct (buildDocument (throws env) c (start history)); [|eauto|tauto].
  destruct (pdf_save (throws env) "CRO_Analysis_Report.pdf" s) eqn:E;
    [eauto|eauto|].
  unfold pdf_save, bind, libcall, emit in E.
  destruct (throws env (calls s)); discriminate E.
Qed.

(** C6.  When the capture is rejected, or a library call throws while the
    document is being built (before the save), the export ends having added
    to the earlier effects exactly a console error and the alert
    "Failed to generate PDF. Please try again."; nothing is saved. *)
Theorem failed_export_saves_nothing (env : Env) (history : list Effect) :
  (exists e, capture env = Rejected e)
  \/ (exists c e s,
        capture env = Resolved c
        /\ buildDocument (throws env) c (start history) = Throw e s) ->
  exists e,
    handleDownloadPDF env history
      = Some (history ++
              [ConsoleError "Error creating PDF:" e;
               Alert "Failed to generate PDF. Please try again."])
    /\ savedDocs
         (history ++
          [ConsoleError "Error creating PDF:" e;
           Alert "Failed to generate PDF. Please try again."])
       = savedDocs history.
Proof.
  intros [(e & Hcap) | (c & e & s & Hcap & Hbuild)]; exists e;
    (split; [|apply savedDocs_onRejected]);
    unfold handleDownloadPDF; rewrite Hcap; [reflexivity|].
  unfold onCaptured, bind. rewrite Hbuild.
  pose proof (buildDocument_outcome (throws env) c (start history)) as Hlog.
  rewrite Hbuild in Hlog. cbn [start log] in Hlog.
  unfold onRejected. now rewrite Hlog.
Qed.

Lemma failed_export_saves_nothing_witness :
  exists e,
    handleDownloadPDF failingSecondPage []
      = Some ([] ++
              [ConsoleError "Error creating PDF:" e;
               Alert "Failed to generate PDF. Please try again."])
    /\ savedDocs
         ([] ++
          [ConsoleError "Error creating PDF:" e;
           Alert "Failed to generate PDF. Please try again."])
       = savedDocs [].
Proof.
  apply (failed_export_saves_nothing failingSecondPage []).
  right. exists (mkCanvas 210 594 ""). do 2 eexists.
  split; [reflexivity|]. vm_compute. reflexivity.
Defined.

(** C7.  Exporting the same capture twice, after any two histories of
    effects (in particular the second export after the first), saves the
    same document both times: the same pages in the same order, hence the
    same bands. *)
Theorem same_capture_same_document
        (c : Canvas) (history1 history2 : list Effect) :
  exists d,
    handleDownloadPDF (quiet c) history1
      = Some (history1 ++ [Saved "CRO_Analysis_Report.pdf" d])
    /\ handleDownloadPDF (quiet c) history2
       = Some (history2 ++ [Saved "CRO_Analysis_Report.pdf" d])
    /\ handleDownloadPDF (quiet c)
         (history1 ++ [Saved "CRO_Analysis_Report.pdf" d])
       = Some ((history1 ++ [Saved "CRO_Analysis_Report.pdf" d])
               ++ [Saved "CRO_Analysis_Report.pdf" d]).
Proof.
  destruct (handleDownloadPDF_quiet c history1) as (d & Hd & Hrun1).
  exists d. split; [exact Hrun1|].
  assert (Hany : forall hist,
             handleDownloadPDF (quiet c) hist
             = Some (hist ++ [Saved "CRO_Analysis_Report.pdf" d])).
  { intros hist. destruct (handleDownloadPDF_quiet c hist) as (d' & Hd' & Hr).
    rewrite Hr. congruence. }
  split; apply Hany.
Qed.

End ExporterFacts.

(** * Facts about the analysis handler and the view *)

Module AnalyzerFacts.
Import JS Analyzer.

Section WithReport.
Variable Report : Type.
Implicit Types (st : AppState Report) (v : View Report).

Lemma begin_empty st :
  url st = "" ->
  handleAnalyze_begin st
    = (setError (Some "Please enter a website URL") st, None).
Proof. intros H. unfold handleAnalyze_begin. now rewrite H. Qed.

Lemma begin_nonempty st :
  url st <> "" ->
  handleAnalyze_begin st
    = (setError None (setLoading true st),
       Some (mkRequest "http://localhost:8000/analyze" (url st))).
Proof.
  intros H. unfold handleAnalyze_begin.
  apply String.eqb_neq in H. now rewrite H.
Qed.

Lemma step_inSync v v' (ev : UiEvent Report) :
  inSync v -> step v ev = Some v' -> inSync v'.
Proof.
  intros Hv Hstep. destruct ev as [u| |answer| |]; cbn [step] in Hstep.
  - injection Hstep as <-. exact Hv.
  - unfold analyzeEnabled in Hstep.
    destruct (loading (app v)) eqn:Hl; [discriminate|].
    destruct Hv as [[Hc _]|[_ Hn]]; [congruence|].
    cbn [negb] in Hstep. unfold handleAnalyze_begin in Hstep.
    destruct (url (app v) =? "")%string;
      injection Hstep as <-; [right|left]; cbn; auto.
  - destruct (analysesInFlight v) as [|n] eqn:Hn; [discriminate|].
    injection Hstep as <-. unfold inSync in Hv. rewrite Hn in Hv.
    destruct Hv as [[_ Hone]|[_ Hzero]]; [|discriminate].
    right. injection Hone as ->. split; [|reflexivity].
    destruct answer; reflexivity.
  - destruct (downloadEnabled (app v)); [|discriminate].
    injection Hstep as <-. exact Hv.
  - destruct (exportsInFlight v); [discriminate|].
    injection Hstep as <-. exact Hv.
Qed.

Lemma run_inSync (evs : list (UiEvent Report)) :
  forall v v', inSync v -> run v evs = Some v' -> inSync v'.
Proof.
  induction evs as [|ev evs IH]; intros v v' Hv Hrun; cbn [run] in Hrun.
  - now injection Hrun as <-.
  - destruct (step v ev) as [v1|] eqn:Hstep; [|discriminate].
    apply (IH v1 v'); [|exact Hrun]. exact (step_inSync _ _ _ Hv Hstep).
Qed.

Lemma reachable_inSync v : reachable v -> inSync v.
Proof.
  intros [evs Hrun]. apply (run_inSync evs mounted v); [|exact Hrun].
  right. split; reflexivity.
Qed.

(** C8, as the code has it.  In every state the view can reach, at most
    one analysis request is outstanding; while one is outstanding the
    Analyze button is disabled and a click on it starts nothing. *)
Theorem one_analysis_at_a_time v :
  reachable v ->
  (analysesInFlight v <= 1)%nat
  /\ ((0 < analysesInFlight v)%nat ->
      analyzeEnabled (app v) = false /\ step v ClickAnalyze = None).
Proof.
  intros Hreach. destruct (reachable_inSync v Hreach) as [[Hl Hn]|[Hl Hn]].
  - rewrite Hn. split; [lia|]. intros _.
    unfold step, analyzeEnabled. now rewrite Hl.
  - rewrite Hn. split; lia.
Qed.

(** C9.  When the request fails, the continuation of [handleAnalyze]
    leaves [results] (and [url]) as they are, whatever they are at that
    moment: it only sets the failure message and resets the loading
    flag; and the part of the handler that runs before the request does
    not touch [results] either. *)
Theorem failed_analysis_keeps_report st (err : Err) :
  results (fst (handleAnalyze_resume (Rejected err) st)) = results st
  /\ url (fst (handleAnalyze_resume (Rejected err) st)) = url st
  /\ error (fst (handleAnalyze_resume (Rejected err) st))
     = Some "Failed to analyze website. Please try another URL."
  /\ loading (fst (handleAnalyze_resume (Rejected err) st)) = false
  /\ results (fst (handleAnalyze_begin st)) = results st
  /\ results
       (fst (handleAnalyze_resume (Rejected err)
                                  (fst (handleAnalyze_begin st))))
     = results st.
Proof.
  unfold handleAnalyze_begin.
  destruct (url st =? "")%string; repeat split.
Qed.

(** C10.  With a non-empty URL, [handleAnalyze] reaches its request with
    the error message cleared and the loading flag set, and whichever way
    the request settles the flag is reset (on success the answer becomes
    the report).  With an empty URL it sets the message
    "Please enter a website URL", issues no request and leaves the
    loading flag (and the report) alone.  In every state the view can
    reach, the flag is set exactly when a request is outstanding. *)
Theorem loading_tracks_request st v :
  (url st <> "" ->
   exists st1,
     handleAnalyze_begin st
       = (st1, Some (mkRequest "http://localhost:8000/analyze" (url st)))
     /\ error st1 = None
     /\ loading st1 = true
     /\ forall (answer : Settled Report) st2,
          loading (fst (handleAnalyze_resume answer st2)) = false)
  /\ (url st = "" ->
      exists st1,
        handleAnalyze_begin st = (st1, None)
        /\ error st1 = Some "Please enter a website URL"
        /\ loading st1 = loading st
        /\ results st1 = results st)
  /\ (reachable v ->
      (loading (app v) = true <-> analysesInFlight v = 1%nat)).
Proof.
  split; [|split].
  - intros Hurl. rewrite (begin_nonempty st Hurl).
    eexists. split; [reflexivity|]. repeat split.
    intros [data|err] st2; reflexivity.
  - intros Hurl. rewrite (begin_empty st Hurl).
    eexists. split; [reflexivity|]. repeat split.
  - intros Hreach.
    destruct (reachable_inSync v Hreach) as [[Hl Hn]|[Hl Hn]];
      rewrite Hl, Hn; split; intros; congruence.
Qed.

End WithReport.

Lemma analysing_reachable : reachable analysing.
Proof. exists [TypeUrl "https://example.com"; ClickAnalyze]. reflexivity. Qed.

Lemma one_analysis_at_a_time_witness :
  (analysesInFlight analysing <= 1)%nat
  /\ ((0 < analysesInFlight analysing)%nat ->
      analyzeEnabled (app analysing) = false
      /\ step analysing ClickAnalyze = None).
Proof.
  apply (one_analysis_at_a_time unit analysing).
  exists [TypeUrl "https://example.com"; ClickAnalyze]. reflexivity.
Defined.

Lemma loading_tracks_request_witness :
  (exists st1 : AppState unit,
      handleAnalyze_begin (mkApp "https://example.com" false None
                                 (Some "Please enter a website URL"))
        = (st1, Some (mkRequest "http://localhost:8000/analyze"
                                "https://example.com"))
      /\ error st1 = None
      /\ loading st1 = true
      /\ forall (answer : Settled unit) st2,
           loading (fst (handleAnalyze_resume answer st2)) = false)
  /\ (exists st1 : AppState unit,
         handleAnalyze_begin (mkApp "" false None None) = (st1, None)
         /\ error st1 = Some "Please enter a website URL"
         /\ loading st1 = false
         /\ results st1 = None)
  /\ (loading (app analysing) = true <-> analysesInFlight analysing = 1%nat).
Proof.
  split; [|split].
  - apply (proj1 (loading_tracks_request unit
                    (mkApp "https://example.com" false None
                           (Some "Please enter a website URL"))
                    analysing)).
    discriminate.
  - apply (proj1 (proj2 (loading_tracks_request unit
                           (mkApp "" false None None) analysing))).
    reflexivity.
  - apply (proj2 (proj2 (loading_tracks_request unit
                           (mkApp "" false None None) analysing))).
    exists [TypeUrl "https://example.com"; ClickAnalyze]. reflexivity.
Defined.

(** C8, as the claim has it, fails for exports: after a report has been
    received, two clicks on Download PDF start two exports, the button
    staying enabled while they are outstanding; and a click on Analyze
    then starts an analysis next to them. *)
Lemma exports_can_overlap :
  exists v1 v2 : View unit,
    run mounted [TypeUrl "https://example.com"; ClickAnalyze;
                 AnalysisSettles (Resolved tt);
                 ClickDownload; ClickDownload] = Some v1
    /\ exportsInFlight v1 = 2%nat
    /\ downloadEnabled (app v1) = true
    /\ step v1 ClickAnalyze = Some v2
    /\ analysesInFlight v2 = 1%nat
    /\ exportsInFlight v2 = 2%nat
    /\ downloadEnabled (app v2) = true.
Proof. do 2 eexists. repeat split. Qed.

End AnalyzerFacts.

(** * Further facts about the export *)

Module ExporterMore.
Import JS Pdf Exporter ExporterFacts.

Lemma inject_nat_le (a b : nat) :
  (a <= b)%nat -> inject_Z (Z.of_nat a) <= inject_Z (Z.of_nat b).
Proof. intros H. rewrite <- Zle_Qle. lia. Qed.

Lemma inject_nat_nonneg (a : nat) : 0 <= inject_Z (Z.of_nat a).
Proof. change 0 with (inject_Z 0). rewrite <- Zle_Qle. lia. Qed.

(** X1.  Whatever the capture and the library calls do, the export ends, and
    what it adds to the earlier effects is either exactly one saved file named
    "CRO_Analysis_Report.pdf" (and no alert), or exactly a console error
    followed by the alert (and no file): never both, never neither. *)
Theorem export_saves_or_alerts (env : Env) (history : list Effect) :
  exists l,
    handleDownloadPDF env history = Some (history ++ l)
    /\ ((exists d, l = [Saved "CRO_Analysis_Report.pdf" d])
        \/ (exists e,
              l = [ConsoleError "Error creating PDF:" e;
                   Alert "Failed to generate PDF. Please try again."])).
Proof.
  unfold handleDownloadPDF. destruct (capture env) as [c|e].
  - unfold onCaptured, bind.
    pose proof (buildDocument_outcome (throws env) c (start history)) as Hlog.
    destruct (buildDocument (throws env) c (start history)) as [[] s|e s|];
      [| |contradiction]; cbn [start log] in Hlog.
    + unfold pdf_save, bind, libcall, emit.
      destruct (throws env (calls s)) as [e|]; cbn [log pdf calls].
      * eexists. unfold onRejected. rewrite Hlog.
        split; [reflexivity|]. right. now exists e.
      * eexists. rewrite Hlog. split; [reflexivity|]. left. now eexists.
    + eexists. unfold onRejected. rewrite Hlog.
      split; [reflexivity|]. right. now exists e.
  - eexists. split; [reflexivity|]. right. now exists e.
Qed.

Lemma canvas_page_count (c : Canvas) (history : list Effect) :
  exists d,
    handleDownloadPDF (quiet c) history
      = Some (history ++ [Saved "CRO_Analysis_Report.pdf" d])
    /\ List.length (pagesOf d)
       = S (Z.to_nat (Z.of_N (cv_height c) * 210 / (Zpos (cv_width c) * 297))).
Proof.
  destruct (handleDownloadPDF_quiet c history) as (d & Hd & Hrun).
  exists d. split; [exact Hrun|].
  destruct (pageCount (cv_png c) imgWidth pageHeight (imgHeightOf c)
              pageHeight_pos) as (d' & Hd' & Hlen).
  assert (d' = d) by congruence. subst d'.
  now rewrite Hlen, loopFuel_canvas.
Qed.

(** X2.  When nothing throws, a canvas [W] pixels wide and [H] pixels high
    is exported on [floor (210 * H / (297 * W)) + 1] pages. *)
Theorem exported_page_count (c : Canvas) (history : list Effect) :
  exists d,
    handleDownloadPDF (quiet c) history
      = Some (history ++ [Saved "CRO_Analysis_Report.pdf" d])
    /\ Z.of_nat (List.length (pagesOf d))
       = (Z.of_N (cv_height c) * 210 / (Zpos (cv_width c) * 297) + 1)%Z.
Proof.
  destruct (canvas_page_count c history) as (d & Hrun & Hlen).
  exists d. split; [exact Hrun|].
  assert (0 <= Z.of_N (cv_height c) * 210 / (Zpos (cv_width c) * 297))%Z
    by (apply Z.div_pos; lia).
  rewrite Hlen. lia.
Qed.

(** X3.  The capture scale does not change the pagination: a canvas whose
    width and height are both [k] times those of another one (whatever its
    pixels) has the same image height in millimetres and is exported on the
    same number of pages. *)
Theorem scaled_capture_same_pages
        (c : Canvas) (k : positive) (png : string) (history : list Effect) :
  let c' := mkCanvas (k * cv_width c) (Npos k * cv_height c) png in
  imgHeightOf c' == imgHeightOf c
  /\ exists d d',
       handleDownloadPDF (quiet c) history
         = Some (history ++ [Saved "CRO_Analysis_Report.pdf" d])
       /\ handleDownloadPDF (quiet c') history
          = Some (history ++ [Saved "CRO_Analysis_Report.pdf" d'])
       /\ List.length (pagesOf d') = List.length (pagesOf d).
Proof.
  intros c'. split.
  - unfold imgHeightOf, heightOf, widthOf, c'; cbn [cv_width cv_height].
    rewrite N2Z.inj_mul, Pos2Z.inj_mul, !inject_Z_mult.
    change (Z.of_N (N.pos k)) with (Zpos k).
    assert (0 < inject_Z (Zpos k)).
    { change 0 with (inject_Z 0). rewrite <- Zlt_Qlt. lia. }
    assert (0 < inject_Z (Zpos (cv_width c))).
    { change 0 with (inject_Z 0). rewrite <- Zlt_Qlt. lia. }
    field. split; lra.
  - destruct (canvas_page_count c history) as (d & Hrun & Hlen).
    destruct (canvas_page_count c' history) as (d' & Hrun' & Hlen').
    exists d, d'. split; [exact Hrun|]. split; [exact Hrun'|].
    rewrite Hlen, Hlen'. do 2 f_equal.
    unfold c'; cbn [cv_width cv_height].
    rewrite N2Z.inj_mul, Pos2Z.inj_mul.
    change (Z.of_N (N.pos k)) with (Zpos k).
    rewrite <- !Z.mul_assoc. apply Z.div_mul_cancel_l; lia.
Qed.

(** The [i]-th drawing of the loop is made while [heightLeft] is [i] page
    heights below its initial value. *)
Lemma extraPages_nth_loop (n : nat) :
  forall data w p h hl i pg,
    nth_error (extraPages n data w p h hl) i = Some pg ->
    (i < n)%nat
    /\ exists hli,
         pg = [loopPlacement data w h hli]
         /\ hli == hl - inject_Z (Z.of_nat i) * p.
Proof.
  induction n as [|n IH]; intros data w p h hl i pg Hnth.
  - destruct i; discriminate.
  - destruct i as [|i]; cbn [extraPages nth_error] in Hnth.
    + injection Hnth as <-. split; [lia|]. exists hl. split; [reflexivity|].
      change (inject_Z (Z.of_nat 0)) with 0. lra.
    + destruct (IH _ _ _ _ _ _ _ Hnth) as (Hi & hli & -> & Hhli).
      split; [lia|]. exists hli. split; [reflexivity|].
      rewrite Hhli, inject_succ. lra.
Qed.

Lemma concat_extraPages_nth (n : nat) :
  forall data w p h hl i,
    nth_error (List.concat (extraPages n data w p h hl)) i
    = option_map (fun pg => hd (firstPlacement data w h) pg)
                 (nth_error (extraPages n data w p h hl) i).
Proof.
  induction n as [|n IH]; intros data w p h hl i.
  - destruct i; reflexivity.
  - destruct i as [|i]; [reflexivity|].
    cbn [extraPages List.concat app nth_error]. apply IH.
Qed.

Lemma bands_extraPages_length (n : nat) :
  forall data w p h hl,
    List.length (map (bandOf p) (List.concat (extraPages n data w p h hl)))
    = n.
Proof.
  induction n as [|n IH]; intros data w p h hl; [reflexivity|].
  rewrite bands_extraPages_S. cbn [List.length]. now rewrite IH.
Qed.

Lemma bands_extraPages_nth (n : nat) (data : string) (w p h hl : Q)
      (i : nat) (b : Band) :
  nth_error (map (bandOf p) (List.concat (extraPages n data w p h hl))) i
  = Some b ->
  (i < n)%nat
  /\ exists hli,
       b = bandOf p (loopPlacement data w h hli)
       /\ hli == hl - inject_Z (Z.of_nat i) * p.
Proof.
  rewrite nth_error_map, concat_extraPages_nth.
  destruct (nth_error (extraPages n data w p h hl) i) as [pg|] eqn:Hnth;
    [|discriminate].
  cbn [option_map]. intros Hb. injection Hb as <-.
  destruct (extraPages_nth_loop _ _ _ _ _ _ _ _ Hnth) as (Hi & hli & -> & Hhli).
  split; [exact Hi|]. exists hli. split; [reflexivity|exact Hhli].
Qed.

(** X4.  For every image height [h >= 0] and page height [p > 0], every band
    but the last one is exactly one page high, and the last band is strictly
    shorter than a page (possibly empty). *)
Theorem bands_full_but_last (data : string) (w p h : Q) :
  0 < p -> 0 <= h ->
  exists d,
    pagesFor data w p h = Some d
    /\ forall (i : nat) (b : Band),
         nth_error (bandsOf p d) i = Some b ->
         ((S i < List.length (bandsOf p d))%nat -> snd b - fst b == p)
         /\ (S i = List.length (bandsOf p d) ->
             0 <= snd b - fst b /\ snd b - fst b < p).
Proof.
  intros Hp Hh.
  destruct (pagesFor_shape data w p h Hp) as (d & Hrun & Hpages).
  destruct (loopFuel_bounds p h Hp) as [Hup Hlow].
  exists d. split; [exact Hrun|].
  rewrite (bandsOf_pagesFor _ _ _ _ _ Hpages).
  cbn [List.length]. rewrite bands_extraPages_length.
  set (k := loopFuel p h) in *.
  pose proof (inject_nat_nonneg k) as Hk0.
  intros [|j] b Hnth; cbn [nth_error] in Hnth.
  - injection Hnth as <-. cbn [bandOf fst snd].
    unfold bandBottom, bandTop, firstPlacement; cbn [pl_y pl_h].
    rewrite Q.max_l by lra. split; intros Hlen.
    + assert (Hk1 : inject_Z (Z.of_nat 1) <= inject_Z (Z.of_nat k))
        by (apply inject_nat_le; lia).
      change (inject_Z (Z.of_nat 1)) with 1 in Hk1.
      specialize (Hlow ltac:(lia)).
      assert (0 <= (inject_Z (Z.of_nat k) - 1) * p)
        by (apply Qmult_le_0_compat; lra).
      rewrite Q.min_r by lra. lra.
    + assert (Hk : k = 0%nat) by lia. rewrite Hk in Hup.
      change (inject_Z (Z.of_nat 0)) with 0 in Hup.
      rewrite Q.min_l by lra. lra.
  - destruct (bands_extraPages_nth _ _ _ _ _ _ _ _ Hnth)
      as (Hj & hli & -> & Hhli).
    cbn [bandOf fst snd]. specialize (Hlow ltac:(lia)).
    pose proof (inject_nat_nonneg j) as Hj0.
    assert (Hjp : 0 <= inject_Z (Z.of_nat j) * p)
      by (apply Qmult_le_0_compat; lra).
    pose proof (bandTop_loop data w h hli ltac:(lra)) as Htop.
    split; intros Hlen.
    + assert (Hjk : inject_Z (Z.of_nat (S (S j))) <= inject_Z (Z.of_nat k))
        by (apply inject_nat_le; lia).
      rewrite !inject_succ in Hjk.
      assert (0 <= (inject_Z (Z.of_nat k) - inject_Z (Z.of_nat j) - 2) * p)
        by (apply Qmult_le_0_compat; lra).
      pose proof (bandBottom_full data w p h hli ltac:(lra)). lra.
    + assert (Hjk : k = S j) by lia. rewrite Hjk, inject_succ in Hup, Hlow.
      pose proof (bandBottom_last data w p h hli ltac:(lra)). lra.
Qed.

Lemma bands_full_but_last_witness :
  0 < 297 /\ 0 <= 594 /\
  exists d,
    pagesFor "" 210 297 594 = Some d
    /\ forall (i : nat) (b : Band),
         nth_error (bandsOf 297 d) i = Some b ->
         ((S i < List.length (bandsOf 297 d))%nat -> snd b - fst b == 297)
         /\ (S i = List.length (bandsOf 297 d) ->
             0 <= snd b - fst b /\ snd b - fst b < 297).
Proof.
  split; [reflexivity|]. split; [discriminate|].
  apply (bands_full_but_last "" 210 297 594); [reflexivity|discriminate].
Defined.

(** X5.  When nothing throws, every page of the exported document carries
    exactly one drawing, and it is always the whole captured image: the same
    PNG data, at the left edge, 210 mm wide and [imgHeight] high, never
    placed below the top of the page. *)
Theorem every_page_draws_whole_image (c : Canvas) (history : list Effect) :
  exists d,
    handleDownloadPDF (quiet c) history
      = Some (history ++ [Saved "CRO_Analysis_Report.pdf" d])
    /\ forall pg,
         In pg (pagesOf d) ->
         exists pl,
           pg = [pl]
           /\ pl_data pl = cv_png c
           /\ pl_format pl = "PNG"
           /\ pl_compression pl = "FAST"
           /\ pl_x pl = 0
           /\ pl_w pl = imgWidth
           /\ pl_h pl = imgHeightOf c
           /\ pl_y pl <= 0.
Proof.
  destruct (handleDownloadPDF_quiet c history) as (d & Hd & Hrun).
  exists d. split; [exact Hrun|].
  destruct (pagesFor_shape (cv_png c) imgWidth pageHeight (imgHeightOf c)
              pageHeight_pos) as (d' & Hd' & Hpages).
  assert (d' = d) by congruence. subst d'.
  intros pg Hin. rewrite Hpages in Hin. destruct Hin as [<-|Hin].
  - eexists. split; [reflexivity|]. cbn. repeat split. lra.
  - apply In_nth_error in Hin. destruct Hin as [i Hnth].
    destruct (extraPages_nth_loop _ _ _ _ _ _ _ _ Hnth)
      as (_ & hli & -> & Hhli).
    eexists. split; [reflexivity|].
    unfold loopPlacement; cbn [pl_data pl_format pl_compression pl_x pl_w
                                 pl_h pl_y].
    repeat split.
    pose proof (inject_nat_nonneg i).
    assert (0 <= inject_Z (Z.of_nat i) * pageHeight)
      by (apply Qmult_le_0_compat; [assumption|discriminate]).
    pose proof pageHeight_pos. lra.
Qed.

End ExporterMore.

(** * Further facts about the analysis handler and the view *)

Module AnalyzerMore.
Import JS Analyzer AnalyzerFacts.

Section WithReport.
Variable Report : Type.
Implicit Types (st : AppState Report) (v : View Report).

(** X6.  A request is only ever issued for a non-empty URL: when
    [handleAnalyze] reaches its request, the body carries the URL of the
    input exactly as typed, that URL is not empty, the endpoint is the fixed
    one, and the state it leaves has the loading flag set and no error. *)
Theorem request_has_typed_url st st1 (req : Request) :
  handleAnalyze_begin st = (st1, Some req) ->
  url st <> ""
  /\ body_url req = url st
  /\ endpoint req = "http://localhost:8000/analyze"
  /\ st1 = mkApp (url st) true (results st) None.
Proof.
  unfold handleAnalyze_begin.
  destruct (url st =? "")%string eqn:E; [discriminate|].
  intros H. injection H as <- <-. apply String.eqb_neq in E.
  repeat split. exact E.
Qed.

(** X7.  A whole successful analysis, from the click to the answer: started
    with a non-empty URL and answered with [data], whatever URL is typed
    meanwhile, it leaves the report [data], no error, the loading flag reset,
    and the URL as it is at that moment. *)
Theorem successful_analysis_shows_report st (typed : list string)
        (data : Report) :
  url st <> "" ->
  let during := fold_left (fun s u => setUrl u s) typed
                          (fst (handleAnalyze_begin st)) in
  fst (handleAnalyze_resume (Resolved data) during)
  = mkApp (url during) false (Some data) None.
Proof.
  intros Hurl during. subst during. rewrite (begin_nonempty _ st Hurl).
  cbn [fst].
  assert (Hinv : forall s : AppState Report,
             error s = None ->
             error (fold_left (fun s u => setUrl u s) typed s) = None).
  { induction typed as [|u typed IH]; intros s Hs; [exact Hs|].
    cbn [fold_left]. apply IH. exact Hs. }
  specialize (Hinv (setError None (setLoading true st)) eq_refl).
  set (during := fold_left (fun s u => setUrl u s) typed
                           (setError None (setLoading true st))) in *.
  cbn [handleAnalyze_resume fst]. unfold setLoading, setResults.
  cbn [url loading results error]. now rewrite Hinv.
Qed.

Lemma step_quietWhileLoading v v' (ev : UiEvent Report) :
  quietWhileLoading v -> step v ev = Some v' -> quietWhileLoading v'.
Proof.
  unfold quietWhileLoading.
  intros Hv Hstep. destruct ev as [u| |answer| |]; cbn [step] in Hstep.
  - injection Hstep as <-. exact Hv.
  - unfold analyzeEnabled in Hstep.
    destruct (loading (app v)) eqn:Hl; [discriminate|].
    cbn [negb] in Hstep. unfold handleAnalyze_begin in Hstep.
    destruct (url (app v) =? "")%string; injection Hstep as <-; cbn.
    + rewrite Hl. discriminate.
    + reflexivity.
  - destruct (analysesInFlight v); [discriminate|].
    injection Hstep as <-. destruct answer; cbn; discriminate.
  - destruct (downloadEnabled (app v)); [|discriminate].
    injection Hstep as <-. exact Hv.
  - destruct (exportsInFlight v); [discriminate|].
    injection Hstep as <-. exact Hv.
Qed.

Lemma reachable_quietWhileLoading v : reachable v -> quietWhileLoading v.
Proof.
  intros [evs Hrun].
  assert (Hgen : forall (l : list (UiEvent Report)) a b,
             quietWhileLoading a -> run a l = Some b -> quietWhileLoading b).
  { induction l as [|ev l IH]; intros a b Ha Hr; cbn [run] in Hr.
    - now injection Hr as <-.
    - destruct (step a ev) as [a'|] eqn:Hs; [|discriminate].
      exact (IH a' b (step_quietWhileLoading _ _ _ Ha Hs) Hr). }
  apply (Hgen evs mounted v); [|exact Hrun]. discriminate.
Qed.

(** X8.  In every state the view can reach, the spinner and the error
    banner are never shown together: while the spinner is shown there is no
    banner, and whenever a banner is shown the Analyze button is enabled. *)
Theorem no_error_next_to_spinner v :
  reachable v ->
  (spinnerShown (app v) = true -> errorBanner (app v) = None)
  /\ (errorBanner (app v) <> None -> analyzeEnabled (app v) = true).
Proof.
  intros Hreach. pose proof (reachable_quietWhileLoading v Hreach) as Hq.
  unfold quietWhileLoading, spinnerShown, errorBanner, analyzeEnabled in *.
  destruct (loading (app v)).
  - rewrite (Hq eq_refl). split; [reflexivity|]. intros H. now contradiction H.
  - split; [discriminate|reflexivity].
Qed.

(** X9.  The report on display can only come from the backend: if after
    some events the view holds a report, one of these events was a
    successful answer carrying exactly that report.  In particular the
    Download PDF button is never available before a successful analysis. *)
Theorem report_comes_from_answer (evs : list (UiEvent Report)) v
        (data : Report) :
  run mounted evs = Some v ->
  results (app v) = Some data ->
  In (AnalysisSettles (Resolved data)) evs.
Proof.
  assert (Hgen : forall (l : list (UiEvent Report)) a b,
             run a l = Some b ->
             results (app b) = Some data ->
             results (app a) = Some data
             \/ In (AnalysisSettles (Resolved data)) l).
  { induction l as [|ev l IH]; intros a b Hr Hres; cbn [run] in Hr.
    - injection Hr as <-. now left.
    - destruct (step a ev) as [a'|] eqn:Hs; [|discriminate].
      destruct (IH a' b Hr Hres) as [Ha'|Hin]; [|right; now right].
      destruct ev as [u| |answer| |]; cbn [step] in Hs.
      + injection Hs as <-. now left.
      + destruct (analyzeEnabled (app a)); [|discriminate].
        unfold handleAnalyze_begin in Hs.
        destruct (url (app a) =? "")%string; injection Hs as <-; now left.
      + destruct (analysesInFlight a); [discriminate|].
        injection Hs as <-. destruct answer as [r|e]; cbn in Ha'.
        * injection Ha' as ->. right. now left.
        * now left.
      + destruct (downloadEnabled (app a)); [|discriminate].
        injection Hs as <-. now left.
      + destruct (exportsInFlight a); [discriminate|].
        injection Hs as <-. now left. }
  intros Hrun Hres. destruct (Hgen evs mounted v Hrun Hres) as [H|H].
  - discriminate H.
  - exact H.
Qed.

(** X10.  Only a successful answer changes the stored report: through any
    sequence of typing, clicks on either button, failed answers and exports
    settling, [results] stays exactly what it was. *)
Theorem report_changes_only_on_success (evs : list (UiEvent Report)) v v' :
  run v evs = Some v' ->
  (forall data, ~ In (AnalysisSettles (Resolved data)) evs) ->
  results (app v') = results (app v).
Proof.
  revert v. induction evs as [|ev evs IH]; intros v Hrun Hno;
    cbn [run] in Hrun.
  - now injection Hrun as <-.
  - destruct (step v ev) as [v1|] eqn:Hs; [|discriminate].
    rewrite (IH v1 Hrun) by (intros data Hin; apply (Hno data); now right).
    destruct ev as [u| |answer| |]; cbn [step] in Hs.
    + injection Hs as <-. reflexivity.
    + destruct (analyzeEnabled (app v)); [|discriminate].
      unfold handleAnalyze_begin in Hs.
      destruct (url (app v) =? "")%string; injection Hs as <-; reflexivity.
    + destruct (analysesInFlight v); [discriminate|].
      injection Hs as <-. destruct answer as [data|e]; [|reflexivity].
      exfalso. apply (Hno data). now left.
    + destruct (downloadEnabled (app v)); [|discriminate].
      injection Hs as <-. reflexivity.
    + destruct (exportsInFlight v); [discriminate|].
      injection Hs as <-. reflexivity.
Qed.

End WithReport.

Lemma request_has_typed_url_witness :
  "https://example.com" <> ""
  /\ body_url (mkRequest "http://localhost:8000/analyze" "https://example.com")
     = "https://example.com"
  /\ endpoint (mkRequest "http://localhost:8000/analyze" "https://example.com")
     = "http://localhost:8000/analyze"
  /\ mkApp "https://example.com" true (@None unit) None
     = mkApp "https://example.com" true None None.
Proof.
  apply (request_has_typed_url unit
           (mkApp "https://example.com" false None (Some "old"))
           (mkApp "https://example.com" true None None)
           (mkRequest "http://localhost:8000/analyze" "https://example.com")).
  reflexivity.
Defined.

Lemma successful_analysis_shows_report_witness :
  fst (handleAnalyze_resume (Resolved tt)
         (fold_left (fun s u => setUrl u s) ["https://example.org"]
            (fst (handleAnalyze_begin
                    (mkApp "https://example.com" false None (Some "old"))))))
  = mkApp "https://example.org" false (Some tt) None.
Proof.
  apply (successful_analysis_shows_report unit
           (mkApp "https://example.com" false None (Some "old"))
           ["https://example.org"] tt).
  discriminate.
Defined.

Lemma no_error_next_to_spinner_witness :
  (spinnerShown (app analysing) = true -> errorBanner (app analysing) = None)
  /\ (errorBanner (app analysing) <> None ->
      analyzeEnabled (app analysing) = true).
Proof.
  apply (no_error_next_to_spinner unit analysing).
  exists [TypeUrl "https://example.com"; ClickAnalyze]. reflexivity.
Defined.

Lemma report_comes_from_answer_witness :
  In (AnalysisSettles (Resolved tt))
     [TypeUrl "https://example.com"; ClickAnalyze;
      AnalysisSettles (Resolved tt)].
Proof.
  apply (report_comes_from_answer unit
           [TypeUrl "https://example.com"; ClickAnalyze;
            AnalysisSettles (Resolved tt)]
           reported tt); reflexivity.
Defined.

Lemma report_changes_only_on_success_witness :
  results
    (app (mkView (mkApp "https://example.com" false (Some tt)
                        (Some "Failed to analyze website. Please try another URL."))
                 0 1))
  = results (app reported).
Proof.
  apply (report_changes_only_on_success unit
           [ClickDownload; ClickAnalyze; AnalysisSettles (Rejected "offline")]
           reported); [reflexivity|].
  intros data [H|[H|[H|[]]]]; discriminate H.
Defined.

End AnalyzerMore.
